(** * railway-opendata: the ViaggiaTreno acquisition core

    A shallow embedding of [src/scraper/api.py] and [src/scraper/train.py]:
    the HTTP request layer ([ViaggiaTrenoAPI._raw_request],
    [_decode_json], [_to_datetime]) and the two-phase [Train] entity
    ([Train.__init__], [Train._from_station_departures_arrivals],
    [Train.fetch]).

    Python values decoded from JSON are kept dynamically typed, exceptions
    are values of an error type, and the mutable [self] together with the
    outside world (network, clock, station directory) is threaded through
    a state-and-exception monad. *)

From Stdlib Require Import ZArith String Ascii List Bool Lia Floats.
From stdpp Require Import base gmap strings list option pretty.

Set Warnings "-register-all".
Local Open Scope string_scope.
Local Open Scope Z_scope.

(** ** Python values *)

(** What [json.loads] can produce: [None], [bool], [int], [float], [str],
    [list] and [dict] with string keys. *)
Inductive value : Type :=
| VNone
| VBool (b : bool)
| VInt (n : Z)
| VFloat (f : float)
| VStr (s : string)
| VList (l : list value)
| VDict (d : gmap string value).

(** Truth value testing ([bool(v)], used by [not v] and [if v]). *)
Definition truthy (v : value) : bool :=
  match v with
  | VNone => false
  | VBool b => b
  | VInt n => negb (n =? 0)
  | VFloat f => negb (PrimFloat.eqb f 0%float)
  | VStr s => negb (String.eqb s "")
  | VList l => negb (Nat.eqb (List.length l) 0)
  | VDict d => negb (Nat.eqb (size d) 0)
  end.

(** [v != 0]: numbers compare by value ([False == 0], [0.0 == 0]), every
    other kind of value differs from [0]. *)
Definition ne_zero (v : value) : bool :=
  match v with
  | VBool b => b
  | VInt n => negb (n =? 0)
  | VFloat f => negb (PrimFloat.eqb f 0%float)
  | _ => true
  end.

(** [v != s] for a string literal [s]. *)
Definition ne_str (v : value) (s : string) : bool :=
  match v with
  | VStr s' => negb (String.eqb s' s)
  | _ => true
  end.

(** ** Exceptions *)

Inductive exn : Type :=
| BadRequestException (url : string) (status_code : Z) (response : string)
| JSONDecodeError
| KeyError (key : string)
| TypeError
| AttributeError
| ValueError
| OverflowError
| RequestException.

Definition is_BadRequestException (e : exn) : bool :=
  match e with
  | BadRequestException _ _ _ => true
  | _ => false
  end.

Inductive result (A : Type) : Type :=
| Ok (a : A)
| Raise (e : exn).
Arguments Ok {A} a.
Arguments Raise {A} e.

(** [v[k]] for a string key [k]. *)
Definition getitem (v : value) (k : string) : result value :=
  match v with
  | VDict d =>
      match d !! k with
      | Some x => Ok x
      | None => Raise (KeyError k)
      end
  | _ => Raise TypeError
  end.

(** ** Strings

    Strings are byte strings; [upper] and [strip] act on the ASCII range,
    which is where the service's category codes live. *)

Definition upper_ascii (c : ascii) : ascii :=
  let n := nat_of_ascii c in
  if (97 <=? n)%nat && (n <=? 122)%nat then ascii_of_nat (n - 32) else c.

Fixpoint upper (s : string) : string :=
  match s with
  | EmptyString => EmptyString
  | String c s' => String (upper_ascii c) (upper s')
  end.

(** [str.isspace] on one character: TAB, LF, VT, FF, CR, FS, GS, RS, US
    and the space. *)
Definition isspace (c : ascii) : bool :=
  let n := nat_of_ascii c in
  ((9 <=? n)%nat && (n <=? 13)%nat) || ((28 <=? n)%nat && (n <=? 32)%nat).

Fixpoint lstrip (s : string) : string :=
  match s with
  | EmptyString => EmptyString
  | String c s' => if isspace c then lstrip s' else s
  end.

Fixpoint rstrip (s : string) : string :=
  match s with
  | EmptyString => EmptyString
  | String c s' =>
      match rstrip s' with
      | EmptyString => if isspace c then EmptyString else String c EmptyString
      | r => String c r
      end
  end.

Definition strip (s : string) : string := rstrip (lstrip s).

(** [v.upper()]: only [str] has the method. *)
Definition str_upper (v : value) : result string :=
  match v with
  | VStr s => Ok (upper s)
  | _ => Raise AttributeError
  end.

Fixpoint startswith (s pre : string) {struct pre} : bool :=
  match pre, s with
  | EmptyString, _ => true
  | String a pre', String b s' => Ascii.eqb a b && startswith s' pre'
  | String _ _, EmptyString => false
  end.

(** [sub in s]. *)
Fixpoint contains (sub s : string) : bool :=
  startswith s sub ||
  match s with
  | EmptyString => false
  | String _ s' => contains sub s'
  end.

(** [sep.join(l)]. *)
Fixpoint join (sep : string) (l : list string) : string :=
  match l with
  | [] => ""
  | [x] => x
  | x :: l' => x ++ sep ++ join sep l'
  end.

(** ** The state-and-exception monad

    A computation runs on a state and ends with a value or a raised
    exception; the state reached is kept in both cases, as Python keeps
    the assignments made before a [raise]. *)

Definition M (S A : Type) : Type := S -> result A * S.

Definition ret {S A} (a : A) : M S A := fun s => (Ok a, s).

Definition raise {S A} (e : exn) : M S A := fun s => (Raise e, s).

Definition bind {S A B} (m : M S A) (k : A -> M S B) : M S B :=
  fun s =>
    match m s with
    | (Ok a, s') => k a s'
    | (Raise e, s') => (Raise e, s')
    end.

Definition lift {S A} (r : result A) : M S A := fun s => (r, s).

(** [try: body  except <caught>: handler]. *)
Definition try_except {S A} (body : M S A) (caught : exn -> bool)
    (handler : M S A) : M S A :=
  fun s =>
    match body s with
    | (Ok a, s') => (Ok a, s')
    | (Raise e, s') => if caught e then handler s' else (Raise e, s')
    end.

Declare Scope py_scope.
Delimit Scope py_scope with py.
Notation "x <- c ;; k" := (bind c (fun x => k))
  (at level 100, c at next level, right associativity) : py_scope.
Notation "c ;;; k" := (bind c (fun _ => k))
  (at level 100, right associativity) : py_scope.

(** ** Collaborators of the acquisition core *)

(** What [requests] hands back for a completed exchange. *)
Record Response : Type := {
  url : string;
  status_code : Z;
  text : string
}.

(** An aware [datetime]: the instant, in microseconds since the epoch,
    and the key of its time zone. *)
Record datetime : Type := {
  timestamp_us : Z;
  tzinfo : string
}.

Module st.

(** [src/scraper/station.py] is outside the core; a station is known by
    its code and carries a name. *)
Record Station : Type := {
  code : string;
  name : string
}.

End st.

(** The world around the core, with state [W]: the HTTP session (which
    retries on its own and may raise instead of answering), the JSON
    decoder, the clock, the time library and the station directory.
    - [session_get u] is [cls._session.get(u)];
    - [json_loads s] is [json.loads(s)], [None] standing for
      [json.JSONDecodeError];
    - [today_midnight_ms] is [int(midnight.timestamp() * 1000)] for the
      [datetime.now()] read at this moment;
    - [fromtimestamp_ms t] is [datetime.fromtimestamp(t / 1000, tz=TIMEZONE)];
    - [str_other p] is [str(p)] for floats, lists and dicts;
    - [by_code c] is [st.Station.by_code(c)]. *)
Record Env (W : Type) : Type := {
  session_get : string -> M W Response;
  json_loads : string -> option value;
  today_midnight_ms : W -> Z * W;
  fromtimestamp_ms : value -> result datetime;
  str_other : value -> string;
  by_code : value -> M W st.Station
}.
Arguments session_get {W} _ _ _.
Arguments json_loads {W} _ _.
Arguments today_midnight_ms {W} _ _.
Arguments fromtimestamp_ms {W} _ _.
Arguments str_other {W} _ _.
Arguments by_code {W} _ _ _.

(** ** [src/scraper/api.py] *)

Module api.
Section ViaggiaTrenoAPI.

Context {W : Type} (E : Env W).
Local Open Scope py_scope.

Definition BASE_URL : string :=
  "http://www.viaggiatreno.it/infomobilita/resteasy/viaggiatreno/".

(** [str(p)] *)
Definition str (p : value) : string :=
  match p with
  | VNone => "None"
  | VBool true => "True"
  | VBool false => "False"
  | VInt n => pretty n
  | VStr s => s
  | _ => str_other E p
  end.

(** The URL [_raw_request] asks the session for. *)
Definition request_url (method : string) (parameters : list value) : string :=
  BASE_URL ++ method ++ "/" ++ join "/" (map str parameters).

Definition _raw_request (method : string) (parameters : list value)
  : M W string :=
  response <- session_get E (request_url method parameters) ;;
  if negb (status_code response =? 200) || contains "Error" (text response)
  then raise (BadRequestException (url response) (status_code response)
                (text response))
  else ret (text response).

Definition _decode_json (string : string) : result value :=
  match json_loads E string with
  | Some v => Ok v
  | None => Raise JSONDecodeError
  end.

Definition _to_datetime (time : value) : result (option datetime) :=
  if negb (truthy time) then Ok None
  else
    match fromtimestamp_ms E time with
    | Ok d => Ok (Some d)
    | Raise e => Raise e
    end.

End ViaggiaTrenoAPI.
End api.

(** ** [src/scraper/train.py] *)

Module tr.

Record Train : Type := {
  number : value;
  origin : st.Station;
  destination : option st.Station;
  category : option string;
  departed : option bool;
  cancelled : option bool;
  delay : value;
  last_detection_place : value;
  last_detection_time : option datetime;
  _phantom : bool
}.

(** Attribute assignments [self.<field> = x]. *)
Definition set_destination (x : option st.Station) (t : Train) : Train :=
  {| number := number t; origin := origin t; destination := x;
     category := category t; departed := departed t;
     cancelled := cancelled t; delay := delay t;
     last_detection_place := last_detection_place t;
     last_detection_time := last_detection_time t;
     _phantom := _phantom t |}.

Definition set_category (x : option string) (t : Train) : Train :=
  {| number := number t; origin := origin t; destination := destination t;
     category := x; departed := departed t;
     cancelled := cancelled t; delay := delay t;
     last_detection_place := last_detection_place t;
     last_detection_time := last_detection_time t;
     _phantom := _phantom t |}.

Definition set_departed (x : option bool) (t : Train) : Train :=
  {| number := number t; origin := origin t; destination := destination t;
     category := category t; departed := x;
     cancelled := cancelled t; delay := delay t;
     last_detection_place := last_detection_place t;
     last_detection_time := last_detection_time t;
     _phantom := _phantom t |}.

Definition set_cancelled (x : option bool) (t : Train) : Train :=
  {| number := number t; origin := origin t; destination := destination t;
     category := category t; departed := departed t;
     cancelled := x; delay := delay t;
     last_detection_place := last_detection_place t;
     last_detection_time := last_detection_time t;
     _phantom := _phantom t |}.

Definition set_delay (x : value) (t : Train) : Train :=
  {| number := number t; origin := origin t; destination := destination t;
     category := category t; departed := departed t;
     cancelled := cancelled t; delay := x;
     last_detection_place := last_detection_place t;
     last_detection_time := last_detection_time t;
     _phantom := _phantom t |}.

Definition set_last_detection_place (x : value) (t : Train) : Train :=
  {| number := number t; origin := origin t; destination := destination t;
     category := category t; departed := departed t;
     cancelled := cancelled t; delay := delay t;
     last_detection_place := x;
     last_detection_time := last_detection_time t;
     _phantom := _phantom t |}.

Definition set_last_detection_time (x : option datetime) (t : Train) : Train :=
  {| number := number t; origin := origin t; destination := destination t;
     category := category t; departed := departed t;
     cancelled := cancelled t; delay := delay t;
     last_detection_place := last_detection_place t;
     last_detection_time := x;
     _phantom := _phantom t |}.

Definition set__phantom (x : bool) (t : Train) : Train :=
  {| number := number t; origin := origin t; destination := destination t;
     category := category t; departed := departed t;
     cancelled := cancelled t; delay := delay t;
     last_detection_place := last_detection_place t;
     last_detection_time := last_detection_time t;
     _phantom := x |}.

(** [Train(number, origin)] *)
Definition __init__ (number : value) (origin : st.Station) : Train :=
  {| number := number; origin := origin; destination := None;
     category := None; departed := None; cancelled := None;
     delay := VNone; last_detection_place := VNone;
     last_detection_time := None; _phantom := false |}.

(** Truth value of an attribute that is [None] or holds a value. *)
Definition truthy_str (o : option string) : bool :=
  match o with
  | Some s => negb (String.eqb s "")
  | None => false
  end.

Definition truthy_bool (o : option bool) : bool :=
  match o with
  | Some b => b
  | None => false
  end.

Section Train.

Context {W : Type} (E : Env W).
Local Open Scope py_scope.

Definition _from_station_departures_arrivals (train_data : value)
  : M W Train :=
  number <- lift (getitem train_data "numeroTreno") ;;
  cod <- lift (getitem train_data "codOrigine") ;;
  origin <- by_code E cod ;;
  let train := __init__ number origin in
  descr <- lift (getitem train_data "categoriaDescrizione") ;;
  up <- lift (str_upper descr) ;;
  let train := set_category (Some (strip up)) train in
  np <- lift (getitem train_data "nonPartito") ;;
  let train := set_departed (Some (negb (truthy np))) train in
  pv <- lift (getitem train_data "provvedimento") ;;
  let train := set_cancelled (Some (ne_zero pv)) train in
  ret train.

(** [fetch] runs on the train it mutates and on the world. *)
Definition on_world {A} (m : M W A) : M (Train * W) A :=
  fun s =>
    match m (snd s) with
    | (r, w') => (r, (fst s, w'))
    end.

Definition self : M (Train * W) Train := fun s => (Ok (fst s), s).

Definition assign (f : Train -> Train) : M (Train * W) unit :=
  fun s => (Ok tt, (f (fst s), snd s)).

(** The second [try] block of [fetch] (lines 96-100): the destination. *)
Definition resolve_destination (train_data : value) : M (Train * W) unit :=
  try_except
    (idd <- lift (getitem train_data "idDestinazione") ;;
     station <- on_world (by_code E idd) ;;
     assign (set_destination (Some station)))
    is_BadRequestException
    (ret tt).

(** The assignments that follow it (lines 102-120). *)
Definition apply_payload (train_data : value) : M (Train * W) unit :=
  cat <- lift (getitem train_data "categoria") ;;
  up <- lift (str_upper cat) ;;
  let category := strip up in
  this <- self ;;
  (if negb (String.eqb category "")
      && (0 <? Z.of_nat (String.length category))
      && negb (truthy_str (tr.category this))
   then assign (set_category (Some category))
   else ret tt) ;;;
  np <- lift (getitem train_data "nonPartito") ;;
  assign (set_departed (Some (negb (truthy np)))) ;;;
  pv <- lift (getitem train_data "provvedimento") ;;
  assign (set_cancelled (Some (ne_zero pv))) ;;;
  this <- self ;;
  (if truthy_bool (tr.departed this)
   then rit <- lift (getitem train_data "ritardo") ;;
        assign (set_delay rit)
   else assign (set_delay VNone)) ;;;
  place <- lift (getitem train_data "stazioneUltimoRilevamento") ;;
  (if ne_str place "--"
   then place' <- lift (getitem train_data "stazioneUltimoRilevamento") ;;
        assign (set_last_detection_place place')
   else assign (set_last_detection_place VNone)) ;;;
  ora <- lift (getitem train_data "oraUltimoRilevamento") ;;
  time <- lift (api._to_datetime E ora) ;;
  assign (set_last_detection_time time).

(** What [fetch] does once the payload has been decoded. *)
Definition merge_details (train_data : value) : M (Train * W) unit :=
  resolve_destination train_data ;;;
  apply_payload train_data.

Definition fetch : M (Train * W) unit :=
  midnight <- on_world (fun w =>
                let (ms, w') := today_midnight_ms E w in (Ok ms, w')) ;;
  this <- self ;;
  raw_details <- on_world
    (api._raw_request E "andamentoTreno"
       [VStr (st.code (origin this)); number this; VInt midnight]) ;;
  decoded <- try_except
    (train_data <- lift (api._decode_json E raw_details) ;;
     ret (Some train_data))
    is_BadRequestException
    (assign (set__phantom true) ;;; ret None) ;;
  match decoded with
  | None => ret tt
  | Some train_data => merge_details train_data
  end.

(** [format(x)] of the category attribute: [None] or a string. *)
Definition str_category (o : option string) : string :=
  match o with
  | Some s => s
  | None => "None"
  end.

(** [Train.__repr__]; [station_str] is [str] of a station, whose class is
    outside the core. *)
Definition __repr__ (station_str : st.Station -> string) (self : Train)
  : string :=
  if _phantom self
  then "Treno [?] " ++ str_category (category self) ++ " " ++
       api.str E (number self) ++ " : " ++ station_str (origin self) ++
       " -> ?"
  else "Treno [" ++
       (if truthy_bool (departed self) then "D" else "S") ++
       (if truthy_bool (cancelled self) then "X" else "") ++ "] " ++
       str_category (category self) ++ " " ++
       api.str E (number self) ++ " : " ++ station_str (origin self) ++
       " -> " ++
       match destination self with
       | Some s => station_str s
       | None => "None"
       end.

End Train.
End tr.

(** ** [src/scraper/api.py], the listing request *)

Module api_trains.
Section StationBoard.

Context {W : Type} (E : Env W).
Local Open Scope py_scope.

(** [datetime.now(tz=TIMEZONE).strftime("%a %b %d %Y %H:%M:%S %Z%z")] *)
Variable strftime_now : W -> string * W.

(** What iterating over a decoded value yields: the items of a list, the
    characters of a string, the keys of a dict (a [gmap] does not keep
    their insertion order); anything else is not iterable. *)
Definition iterate (v : value) : result (list value) :=
  match v with
  | VList l => Ok l
  | VStr s => Ok (map (fun c => VStr (String c "")) (list_ascii_of_string s))
  | VDict d => Ok (map (fun kv => VStr (fst kv)) (map_to_list d))
  | _ => Raise TypeError
  end.

(** [list(map(f, items))]: the calls run in order and the first exception
    ends the whole. *)
Fixpoint map_m {S A B : Type} (f : A -> M S B) (items : list A)
  : M S (list B) :=
  match items with
  | [] => ret []
  | x :: rest =>
      y <- f x ;;
      ys <- map_m f rest ;;
      ret (y :: ys)
  end.

(** [None] is the [AssertionError] of [assert kind in ["partenze",
    "arrivi"]], raised before anything is asked of the world. *)
Definition _station_departures_or_arrivals (kind station_code : string)
  : W -> option (result (list tr.Train) * W) :=
  fun w =>
    if String.eqb kind "partenze" || String.eqb kind "arrivi"
    then Some
      ((now <- (fun w => let (s, w') := strftime_now w in (Ok s, w')) ;;
        raw_trains <- api._raw_request E kind [VStr station_code; VStr now] ;;
        trains <- lift (api._decode_json E raw_trains) ;;
        items <- lift (iterate trains) ;;
        map_m (tr._from_station_departures_arrivals E) items) w)
    else None.

End StationBoard.
End api_trains.

(** ** Vocabulary of the statements *)

(** [sub] occurs somewhere inside [s]. *)
Definition substring (sub s : string) : Prop :=
  exists p q : string, s = p ++ sub ++ q.

(** Every character of [s] is white space (so is the empty string). *)
Fixpoint blank (s : string) : bool :=
  match s with
  | EmptyString => true
  | String c s' => isspace c && blank s'
  end.

(** The fields of a run-tracking record ([andamentoTreno]). *)
Record Details : Type := {
  idDestinazione : value;
  categoria : string;
  nonPartito : value;
  provvedimento : value;
  ritardo : value;
  stazioneUltimoRilevamento : value;
  oraUltimoRilevamento : value
}.

(** The decoded object [d] carries the fields [p] (and maybe more). *)
Definition carries (d : gmap string value) (p : Details) : Prop :=
  d !! "idDestinazione" = Some (idDestinazione p) /\
  d !! "categoria" = Some (VStr (categoria p)) /\
  d !! "nonPartito" = Some (nonPartito p) /\
  d !! "provvedimento" = Some (provvedimento p) /\
  d !! "ritardo" = Some (ritardo p) /\
  d !! "stazioneUltimoRilevamento" = Some (stazioneUltimoRilevamento p) /\
  d !! "oraUltimoRilevamento" = Some (oraUltimoRilevamento p).



(** The outcome of a station lookup that [fetch] lives with: a station,
    or the [BadRequestException] its handler passes over. *)
Definition settles (r : result st.Station) : Prop :=
  match r with
  | Ok _ => True
  | Raise e => is_BadRequestException e = true
  end.


(** The merge rules on a decoded record [p], in the specification's words:
    the destination is set from the resolved station (and left alone when
    there is none); the category is taken from the record only when the
    extracted value is non-empty and the train has no category yet;
    [departed] and [cancelled] are recomputed; the delay is the record's
    only for a departed train; the place of last detection is unset for
    the sentinel; the time of last detection is the converted epoch. *)
Definition merged (t : tr.Train) (station : option st.Station) (p : Details)
    (time : option datetime) : tr.Train :=
  let category := upper (strip (categoria p)) in
  let departed := negb (truthy (nonPartito p)) in
  {| tr.number := tr.number t;
     tr.origin := tr.origin t;
     tr.destination :=
       match station with
       | Some s => Some s
       | None => tr.destination t
       end;
     tr.category :=
       if negb (String.eqb category "") && negb (tr.truthy_str (tr.category t))
       then Some category
       else tr.category t;
     tr.departed := Some departed;
     tr.cancelled := Some (ne_zero (provvedimento p));
     tr.delay := if departed then ritardo p else VNone;
     tr.last_detection_place :=
       if ne_str (stazioneUltimoRilevamento p) "--"
       then stazioneUltimoRilevamento p
       else VNone;
     tr.last_detection_time := time;
     tr._phantom := tr._phantom t |}.

(** The station a lookup produced, if any. *)
Definition resolved (r : result st.Station) : option st.Station :=
  match r with
  | Ok s => Some s
  | Raise _ => None
  end.

Section Vocabulary.

Context {W : Type} (E : Env W).

(** The detail request of [fetch] on train [t], issued in world [w], is
    answered with status 200 and a body free of the error marker, which
    decodes to [train_data]; the world is then [w']. *)
Definition detail_fetched (t : tr.Train) (w : W) (train_data : value)
    (w' : W) : Prop :=
  exists (ms : Z) (w1 : W) (response : Response),
    today_midnight_ms E w = (ms, w1) /\
    session_get E
      (api.request_url E "andamentoTreno"
         [VStr (st.code (tr.origin t)); tr.number t; VInt ms]) w1
    = (Ok response, w') /\
    status_code response = 200 /\
    ~ substring "Error" (text response) /\
    json_loads E (text response) = Some train_data.


End Vocabulary.

(** A train as construction leaves it: no destination, no detail, the
    phantom flag down. *)
Definition is_listed (t : tr.Train) : Prop :=
  tr.destination t = None /\
  tr.delay t = VNone /\
  tr.last_detection_place t = VNone /\
  tr.last_detection_time t = None /\
  tr._phantom t = false.

(** [isinstance(v, dict)] and [isinstance(v, str)]. *)
Definition is_object (v : value) : bool :=
  match v with
  | VDict _ => true
  | _ => false
  end.

Definition is_str (v : value) : bool :=
  match v with
  | VStr _ => true
  | _ => false
  end.


Section Histories.

Context {W : Type} (E : Env W).

(** [t'] is [t] after some number of [fetch] calls, each in any world and
    with any outcome. *)
Inductive fetched : tr.Train -> tr.Train -> Prop :=
| fetched_none (t : tr.Train) : fetched t t
| fetched_more (t t' t'' : tr.Train) (w w' : W) (r : result unit) :
    fetched t t' ->
    tr.fetch E (t', w) = (r, (t'', w')) ->
    fetched t t''.

End Histories.

(** ** A scripted world

    A small concrete environment on which the embedding runs: the server
    answers from a script of (status, body) pairs, the directory knows two
    stations, and the decoder knows the bodies below. *)

Module demo.

Definition q (s : string) : string :=
  String "034"%char s ++ String "034"%char "".

(** A complete run-tracking record: not departed, blank category, a
    destination the directory does not know. *)
Definition body_waiting : string :=
  "{" ++ q "idDestinazione" ++ ": " ++ q "S9" ++ ", " ++
  q "categoria" ++ ": " ++ q " " ++ ", " ++
  q "nonPartito" ++ ": true, " ++
  q "provvedimento" ++ ": 0, " ++
  q "ritardo" ++ ": 7, " ++
  q "stazioneUltimoRilevamento" ++ ": " ++ q "--" ++ ", " ++
  q "oraUltimoRilevamento" ++ ": null}".

Definition data_waiting : gmap string value :=
  list_to_map
    [("idDestinazione", VStr "S9"); ("categoria", VStr " ");
     ("nonPartito", VBool true); ("provvedimento", VInt 0);
     ("ritardo", VInt 7); ("stazioneUltimoRilevamento", VStr "--");
     ("oraUltimoRilevamento", VNone)].

Definition details_waiting : Details :=
  {| idDestinazione := VStr "S9"; categoria := " ";
     nonPartito := VBool true; provvedimento := VInt 0;
     ritardo := VInt 7; stazioneUltimoRilevamento := VStr "--";
     oraUltimoRilevamento := VNone |}.

(** A complete record of a running train. *)
Definition body_running : string :=
  "{" ++ q "idDestinazione" ++ ": " ++ q "S2" ++ ", " ++
  q "categoria" ++ ": " ++ q "reg" ++ ", " ++
  q "nonPartito" ++ ": false, " ++
  q "provvedimento" ++ ": 0, " ++
  q "ritardo" ++ ": 5, " ++
  q "stazioneUltimoRilevamento" ++ ": " ++ q "LODI" ++ ", " ++
  q "oraUltimoRilevamento" ++ ": 1700000000000}".

Definition data_running : gmap string value :=
  list_to_map
    [("idDestinazione", VStr "S2"); ("categoria", VStr "reg");
     ("nonPartito", VBool false); ("provvedimento", VInt 0);
     ("ritardo", VInt 5); ("stazioneUltimoRilevamento", VStr "LODI");
     ("oraUltimoRilevamento", VInt 1700000000000)].

Definition details_running : Details :=
  {| idDestinazione := VStr "S2"; categoria := "reg";
     nonPartito := VBool false; provvedimento := VInt 0;
     ritardo := VInt 5; stazioneUltimoRilevamento := VStr "LODI";
     oraUltimoRilevamento := VInt 1700000000000 |}.

(** A record of a train that has not departed, without [ritardo]. *)
Definition body_no_ritardo : string :=
  "{" ++ q "idDestinazione" ++ ": " ++ q "S2" ++ ", " ++
  q "categoria" ++ ": " ++ q "REG" ++ ", " ++
  q "nonPartito" ++ ": true, " ++
  q "provvedimento" ++ ": 0, " ++
  q "stazioneUltimoRilevamento" ++ ": " ++ q "--" ++ ", " ++
  q "oraUltimoRilevamento" ++ ": null}".

Definition data_no_ritardo : gmap string value :=
  list_to_map
    [("idDestinazione", VStr "S2"); ("categoria", VStr "REG");
     ("nonPartito", VBool true); ("provvedimento", VInt 0);
     ("stazioneUltimoRilevamento", VStr "--");
     ("oraUltimoRilevamento", VNone)].

(** A record without [provvedimento]. *)
Definition body_no_provvedimento : string :=
  "{" ++ q "idDestinazione" ++ ": " ++ q "S2" ++ ", " ++
  q "categoria" ++ ": " ++ q "REG" ++ ", " ++
  q "nonPartito" ++ ": false, " ++
  q "ritardo" ++ ": 5}".

Definition data_no_provvedimento : gmap string value :=
  list_to_map
    [("idDestinazione", VStr "S2"); ("categoria", VStr "REG");
     ("nonPartito", VBool false); ("ritardo", VInt 5)].

(** The listing record of the end-to-end example. *)
Definition data_listing : gmap string value :=
  list_to_map
    [("numeroTreno", VInt 100); ("codOrigine", VStr "S1");
     ("categoriaDescrizione", VStr " reg ");
     ("nonPartito", VBool false); ("provvedimento", VInt 0)].


Definition loads (s : string) : option value :=
  if String.eqb s body_waiting then Some (VDict data_waiting)
  else if String.eqb s body_running then Some (VDict data_running)
  else if String.eqb s body_no_ritardo then Some (VDict data_no_ritardo)
  else if String.eqb s body_no_provvedimento
       then Some (VDict data_no_provvedimento)
  else if String.eqb s "[]" then Some (VList [])
  else None.

Definition S1 : st.Station := {| st.code := "S1"; st.name := "MILANO" |}.
Definition S2 : st.Station := {| st.code := "S2"; st.name := "PIACENZA" |}.

(** The world is the script of answers still to come. *)
Definition World : Type := list (Z * string).

Definition get (u : string) : M World Response :=
  fun w =>
    match w with
    | (status, body) :: w' =>
        (Ok {| url := u; status_code := status; text := body |}, w')
    | [] => (Raise RequestException, [])
    end.

Definition lookup (c : value) : M World st.Station :=
  match c with
  | VStr "S1" => ret S1
  | VStr "S2" => ret S2
  | _ => raise (BadRequestException "cercaStazione" 200 "")
  end.

Definition fromtimestamp (time : value) : result datetime :=
  match time with
  | VInt n => Ok {| timestamp_us := n * 1000; tzinfo := "Europe/Rome" |}
  | _ => Raise TypeError
  end.

Definition env : Env World :=
  {| session_get := get;
     json_loads := loads;
     today_midnight_ms := fun w => (1699916400000, w);
     fromtimestamp_ms := fromtimestamp;
     str_other := fun _ => "";
     by_code := lookup |}.

(** Train 100 from S1, as listed and as a bare object. *)
Definition listed : tr.Train :=
  {| tr.number := VInt 100; tr.origin := S1;
     tr.destination := None; tr.category := Some "REG";
     tr.departed := Some true; tr.cancelled := Some false;
     tr.delay := VNone; tr.last_detection_place := VNone;
     tr.last_detection_time := None; tr._phantom := false |}.

Definition bare : tr.Train := tr.__init__ (VInt 100) S1.

(** The listed train with the phantom flag raised. *)
Definition ghost : tr.Train := tr.set__phantom true listed.

(** The bare train after a fetch of the running record. *)
Definition running : tr.Train :=
  {| tr.number := VInt 100; tr.origin := S1;
     tr.destination := Some S2; tr.category := Some "REG";
     tr.departed := Some true; tr.cancelled := Some false;
     tr.delay := VInt 5; tr.last_detection_place := VStr "LODI";
     tr.last_detection_time :=
       Some {| timestamp_us := 1700000000000000; tzinfo := "Europe/Rome" |};
     tr._phantom := false |}.

Definition detail_url : string :=
  "http://www.viaggiatreno.it/infomobilita/resteasy/viaggiatreno/andamentoTreno/S1/100/1699916400000".

End demo.

(** The scripted world with a station board: the decoder also knows
    listing bodies and a few malformed records, and the directory refuses
    a code that is not a string with [TypeError]. *)
Module board.

Definition record_100 : string :=
  "{" ++ demo.q "numeroTreno" ++ ": 100, " ++
  demo.q "codOrigine" ++ ": " ++ demo.q "S1" ++ ", " ++
  demo.q "categoriaDescrizione" ++ ": " ++ demo.q " reg " ++ ", " ++
  demo.q "nonPartito" ++ ": false, " ++
  demo.q "provvedimento" ++ ": 0}".

(** A board with the train of the end-to-end example. *)
Definition body_one : string := "[" ++ record_100 ++ "]".

(** A board whose second record is empty. *)
Definition body_broken : string := "[" ++ record_100 ++ ", {}]".

(** Run-tracking records: an empty one, one with a null destination, one
    with a null category. *)
Definition body_empty : string := "{}".

Definition body_null_destination : string :=
  "{" ++ demo.q "idDestinazione" ++ ": null}".

Definition data_null_destination : gmap string value :=
  list_to_map [("idDestinazione", VNone)].

Definition body_null_category : string :=
  "{" ++ demo.q "idDestinazione" ++ ": " ++ demo.q "S2" ++ ", " ++
  demo.q "categoria" ++ ": null}".

Definition data_null_category : gmap string value :=
  list_to_map [("idDestinazione", VStr "S2"); ("categoria", VNone)].

(** A listing record whose origin the directory does not know. *)
Definition data_unknown_origin : gmap string value :=
  list_to_map [("numeroTreno", VInt 7); ("codOrigine", VStr "S9")].

Definition loads (s : string) : option value :=
  if String.eqb s body_one then Some (VList [VDict demo.data_listing])
  else if String.eqb s body_broken
       then Some (VList [VDict demo.data_listing; VDict ∅])
  else if String.eqb s body_empty then Some (VDict ∅)
  else if String.eqb s body_null_destination
       then Some (VDict data_null_destination)
  else if String.eqb s body_null_category
       then Some (VDict data_null_category)
  else demo.loads s.

Definition lookup (c : value) : M demo.World st.Station :=
  match c with
  | VStr _ => demo.lookup c
  | _ => raise TypeError
  end.

Definition env : Env demo.World :=
  {| session_get := demo.get;
     json_loads := loads;
     today_midnight_ms := fun w => (1699916400000, w);
     fromtimestamp_ms := demo.fromtimestamp;
     str_other := fun _ => "";
     by_code := lookup |}.

Definition now (w : demo.World) : string * demo.World :=
  ("Tue Nov 14 2023 23:13:20 CET+0100", w).

Definition station_str (s : st.Station) : string :=
  st.name s ++ " [" ++ st.code s ++ "]".

(** The listed train after a fetch of the waiting record. *)
Definition waiting : tr.Train :=
  {| tr.number := VInt 100; tr.origin := demo.S1;
     tr.destination := None; tr.category := Some "REG";
     tr.departed := Some false; tr.cancelled := Some false;
     tr.delay := VNone; tr.last_detection_place := VNone;
     tr.last_detection_time := None; tr._phantom := false |}.

End board.

Example demo_fetch_running :
  tr.fetch demo.env (demo.bare, [(200, demo.body_running)])
  = (Ok tt, (demo.running, [])).
Proof. vm_compute. reflexivity. Qed.

Example demo_request_url :
  api.request_url demo.env "andamentoTreno"
    [VStr "S1"; VInt 100; VInt 1699916400000] = demo.detail_url.
Proof. vm_compute. reflexivity. Qed.

(** * Properties *)

(** ** Strings *)

Lemma append_nil (s : string) : "" ++ s = s.
Proof. reflexivity. Qed.

Lemma append_cons (c : ascii) (s r : string) :
  String c s ++ r = String c (s ++ r).
Proof. reflexivity. Qed.

Lemma startswith_app (pre rest : string) : startswith (pre ++ rest) pre = true.
Proof.
  induction pre as [|a pre IH].
  - reflexivity.
  - rewrite append_cons. simpl. rewrite Ascii.eqb_refl. exact IH.
Qed.

Lemma startswith_inv (s pre : string) :
  startswith s pre = true -> exists rest, s = pre ++ rest.
Proof.
  revert s. induction pre as [|a pre IH]; intros s H.
  - exists s. reflexivity.
  - destruct s as [|b s]; simpl in H; [discriminate|].
    apply andb_prop in H as [Hab Hrest].
    apply Ascii.eqb_eq in Hab. subst b.
    destruct (IH s Hrest) as [rest ->].
    exists rest. reflexivity.
Qed.

(** Python's [sub in s] is the substring relation. *)
Lemma contains_spec (sub s : string) :
  contains sub s = true <-> substring sub s.
Proof.
  split.
  - induction s as [|c s IH]; simpl; intros H.
    + apply orb_prop in H as [H|H]; [|discriminate].
      apply startswith_inv in H as [rest Hr].
      exists "", rest. exact Hr.
    + apply orb_prop in H as [H|H].
      * apply startswith_inv in H as [rest Hr].
        exists "", rest. exact Hr.
      * destruct (IH H) as (p & r & ->).
        exists (String c p), r. reflexivity.
  - intros (p & r & ->).
    induction p as [|c p IH].
    + rewrite append_nil.
      destruct (sub ++ r) eqn:Hs.
      * destruct sub; [reflexivity | discriminate].
      * simpl. rewrite <- Hs, startswith_app. reflexivity.
    + rewrite append_cons. simpl. rewrite IH. apply orb_true_r.
Qed.

Lemma contains_false (sub s : string) :
  contains sub s = false <-> ~ substring sub s.
Proof.
  rewrite <- contains_spec.
  destruct (contains sub s); split; intros H; congruence.
Qed.

Lemma isspace_upper_ascii (c : ascii) : isspace (upper_ascii c) = isspace c.
Proof.
  destruct c as [[] [] [] [] [] [] [] []]; reflexivity.
Qed.

Lemma upper_lstrip (s : string) : upper (lstrip s) = lstrip (upper s).
Proof.
  induction s as [|c s IH]; simpl.
  - reflexivity.
  - rewrite isspace_upper_ascii. destruct (isspace c); [exact IH | reflexivity].
Qed.

Lemma upper_rstrip (s : string) : upper (rstrip s) = rstrip (upper s).
Proof.
  induction s as [|c s IH]; simpl.
  - reflexivity.
  - rewrite <- IH, isspace_upper_ascii.
    destruct (rstrip s); simpl.
    + destruct (isspace c); reflexivity.
    + reflexivity.
Qed.

(** Trimming and upper-casing commute: the source upper-cases first, the
    specification trims first. *)
Lemma upper_strip (s : string) : upper (strip s) = strip (upper s).
Proof.
  unfold strip. rewrite upper_rstrip, upper_lstrip. reflexivity.
Qed.

Lemma lstrip_blank (s : string) : blank s = true -> lstrip s = "".
Proof.
  induction s as [|c s IH]; simpl; intros H.
  - reflexivity.
  - apply andb_prop in H as [Hc Hs]. rewrite Hc. exact (IH Hs).
Qed.

Lemma blank_upper (s : string) : blank (upper s) = blank s.
Proof.
  induction s as [|c s IH]; simpl.
  - reflexivity.
  - rewrite isspace_upper_ascii, IH. reflexivity.
Qed.

(** A blank category string is extracted as the empty string. *)
Lemma strip_upper_blank (s : string) :
  blank s = true -> strip (upper s) = "".
Proof.
  intros H. unfold strip. rewrite lstrip_blank; [reflexivity|].
  rewrite blank_upper. exact H.
Qed.

(** ** Running the monad *)

Ltac py_unfold :=
  cbv beta iota zeta delta
    [tr.fetch tr.merge_details tr.resolve_destination tr.apply_payload
     tr._from_station_departures_arrivals
     api._raw_request api._decode_json
     bind try_except lift ret raise tr.on_world tr.self tr.assign fst snd].

(** Case analysis on an innermost scrutinee of the goal. *)
Ltac py_case :=
  match goal with
  | |- context [match ?x with _ => _ end] =>
      lazymatch x with
      | context [match _ with _ => _ end] => fail
      | _ => destruct x eqn:?
      end
  end; py_unfold.

Lemma getitem_Some (d : gmap string value) (k : string) (v : value) :
  d !! k = Some v -> getitem (VDict d) k = Ok v.
Proof. intros H. unfold getitem. rewrite H. reflexivity. Qed.

Lemma getitem_None (d : gmap string value) (k : string) :
  d !! k = None -> getitem (VDict d) k = Raise (KeyError k).
Proof. intros H. unfold getitem. rewrite H. reflexivity. Qed.

(** ** The request layer *)

Section ApiFacts.

Context {W : Type} (E : Env W).

(** An exception of the session itself passes through [_raw_request]. *)
Lemma raw_request_transport (method : string) (parameters : list value)
    (w w' : W) (e : exn) :
  session_get E (api.request_url E method parameters) w = (Raise e, w') ->
  api._raw_request E method parameters w = (Raise e, w').
Proof. intros H. py_unfold. rewrite H. reflexivity. Qed.

(** [_raw_request] once the session has handed back a response. *)
Lemma raw_request_run (method : string) (parameters : list value)
    (w w' : W) (response : Response) :
  session_get E (api.request_url E method parameters) w = (Ok response, w') ->
  api._raw_request E method parameters w =
  if negb (status_code response =? 200) || contains "Error" (text response)
  then (Raise (BadRequestException (url response) (status_code response)
                 (text response)), w')
  else (Ok (text response), w').
Proof.
  intros H. py_unfold. rewrite H.
  destruct (negb _ || _); reflexivity.
Qed.


(** [None] and [0] are converted to [None], without consulting the time
    library. *)
Lemma to_datetime_None : api._to_datetime E VNone = Ok None.
Proof. reflexivity. Qed.

Lemma to_datetime_zero : api._to_datetime E (VInt 0) = Ok None.
Proof. reflexivity. Qed.

(** Any other integer goes to [datetime.fromtimestamp]. *)
Lemma to_datetime_nonzero (n : Z) :
  n <> 0 ->
  api._to_datetime E (VInt n) =
  match fromtimestamp_ms E (VInt n) with
  | Ok d => Ok (Some d)
  | Raise e => Raise e
  end.
Proof.
  intros Hn. unfold api._to_datetime. simpl.
  destruct (Z.eqb_spec n 0); [contradiction | reflexivity].
Qed.

End ApiFacts.


(** ** The train entity *)

Section TrainFacts.

Context {W : Type} (E : Env W).

(** [fetch] in terms of what the world answers. *)
Lemma fetch_unfold (t : tr.Train) (w : W) :
  tr.fetch E (t, w) =
  let (ms, w1) := today_midnight_ms E w in
  match api._raw_request E "andamentoTreno"
          [VStr (st.code (tr.origin t)); tr.number t; VInt ms] w1 with
  | (Raise e, w2) => (Raise e, (t, w2))
  | (Ok raw_details, w2) =>
      match json_loads E raw_details with
      | None => (Raise JSONDecodeError, (t, w2))
      | Some train_data => tr.merge_details E train_data (t, w2)
      end
  end.
Proof.
  unfold tr.fetch, bind, tr.on_world, tr.self, try_except, lift, ret,
    api._decode_json. simpl.
  destruct (today_midnight_ms E w) as [ms w1]. simpl.
  destruct (api._raw_request _ _ _ _) as [[raw|e] w2]; simpl; [|reflexivity].
  destruct (json_loads E raw); reflexivity.
Qed.

(** Once the detail request has been answered and decoded, [fetch] is
    the merge of the decoded record. *)
Lemma fetch_of_detail (t : tr.Train) (w w' : W) (train_data : value) :
  detail_fetched E t w train_data w' ->
  tr.fetch E (t, w) = tr.merge_details E train_data (t, w').
Proof.
  intros (ms & w1 & response & Hms & Hget & H200 & Herr & Hjson).
  rewrite fetch_unfold, Hms, (raw_request_run E _ _ _ _ _ Hget).
  apply contains_false in Herr. rewrite Herr.
  apply Z.eqb_eq in H200. rewrite H200. simpl.
  rewrite Hjson. reflexivity.
Qed.

(** A failed request leaves [fetch] through the exception, with the train
    as it was: the call to [_raw_request] stands before the [try]. *)
Lemma fetch_request_failed (t : tr.Train) (w w1 w2 : W) (ms : Z) (e : exn) :
  today_midnight_ms E w = (ms, w1) ->
  api._raw_request E "andamentoTreno"
    [VStr (st.code (tr.origin t)); tr.number t; VInt ms] w1 = (Raise e, w2) ->
  tr.fetch E (t, w) = (Raise e, (t, w2)).
Proof. intros Hms Hreq. rewrite fetch_unfold, Hms, Hreq. reflexivity. Qed.

(** A body that does not decode leaves [fetch] through
    [json.JSONDecodeError], which [except api.BadRequestException] does not
    catch. *)
Lemma fetch_decode_failed (t : tr.Train) (w w1 w2 : W) (ms : Z)
    (raw_details : string) :
  today_midnight_ms E w = (ms, w1) ->
  api._raw_request E "andamentoTreno"
    [VStr (st.code (tr.origin t)); tr.number t; VInt ms] w1
  = (Ok raw_details, w2) ->
  json_loads E raw_details = None ->
  tr.fetch E (t, w) = (Raise JSONDecodeError, (t, w2)).
Proof.
  intros Hms Hreq Hjson. rewrite fetch_unfold, Hms, Hreq, Hjson. reflexivity.
Qed.

(** The merge never touches the phantom flag. *)
Lemma merge_details_phantom (train_data : value) (t : tr.Train) (w : W) :
  tr._phantom (fst (snd (tr.merge_details E train_data (t, w))))
  = tr._phantom t.
Proof. py_unfold. repeat py_case; reflexivity. Qed.

(** No call of [fetch] changes the phantom flag, whatever its outcome. *)
Lemma fetch_phantom (t : tr.Train) (w : W) :
  tr._phantom (fst (snd (tr.fetch E (t, w)))) = tr._phantom t.
Proof.
  rewrite fetch_unfold.
  destruct (today_midnight_ms E w) as [ms w1].
  destruct (api._raw_request _ _ _ _) as [[raw|e] w2]; [|reflexivity].
  destruct (json_loads E raw); [|reflexivity].
  apply merge_details_phantom.
Qed.




End TrainFacts.


(** C1. With the request answered by status 500, [fetch] on train 100
    raises [BadRequestException] to its caller and the phantom flag is
    still false; with status 200 and a body that is not JSON it raises
    [JSONDecodeError], the flag again false. The train is unchanged in
    both runs. *)
Theorem fetch_failure_propagates :
  tr.fetch demo.env (demo.listed, [(500, "")])
  = (Raise (BadRequestException demo.detail_url 500 ""), (demo.listed, []))
  /\
  tr.fetch demo.env (demo.listed, [(200, "<html>")])
  = (Raise JSONDecodeError, (demo.listed, []))
  /\ tr._phantom demo.listed = false.
Proof. repeat split; vm_compute; reflexivity. Qed.

(** ** The merge of a decoded record *)

Ltac train_simpl :=
  cbn [tr.number tr.origin tr.destination tr.category tr.departed
       tr.cancelled tr.delay tr.last_detection_place tr.last_detection_time
       tr._phantom tr.set_destination tr.set_category tr.set_departed
       tr.set_cancelled tr.set_delay tr.set_last_detection_place
       tr.set_last_detection_time tr.set__phantom tr.__init__
       tr.truthy_bool fst snd] in *.

Lemma truthy_str_Some (c : string) : c <> "" -> tr.truthy_str (Some c) = true.
Proof.
  intros H. simpl.
  destruct (String.eqb_spec c ""); [contradiction | reflexivity].
Qed.

Section MergeFacts.

Context {W : Type} (E : Env W).

(** A category the train already has survives the merge. *)
Lemma merge_details_category (train_data : value) (t : tr.Train) (w : W)
    (c : string) :
  tr.category t = Some c -> c <> "" ->
  tr.category (fst (snd (tr.merge_details E train_data (t, w)))) = Some c.
Proof.
  intros Hc Hne. pose proof (truthy_str_Some c Hne) as Htr.
  py_unfold.
  repeat py_case; train_simpl; try assumption.
  all: match goal with
       | H : _ && negb (tr.truthy_str _) = true |- _ =>
           rewrite Hc, Htr, andb_false_r in H; discriminate
       end.
Qed.

(** So does it survive [fetch], whatever the world answers. *)
Lemma fetch_category (t : tr.Train) (w : W) (c : string) :
  tr.category t = Some c -> c <> "" ->
  tr.category (fst (snd (tr.fetch E (t, w)))) = Some c.
Proof.
  intros Hc Hne. rewrite fetch_unfold.
  destruct (today_midnight_ms E w) as [ms w1].
  destruct (api._raw_request _ _ _ _) as [[raw|e] w2]; [|exact Hc].
  destruct (json_loads E raw); [|exact Hc].
  apply merge_details_category; assumption.
Qed.

(** C4. A train whose category is set to a non-empty value keeps it
    through a [fetch] whose decoded record has an empty or blank
    [categoria]: the category after the call is the one before it. *)
Theorem fetch_keeps_category (t : tr.Train) (w w' : W)
    (d : gmap string value) (s c : string) :
  tr.category t = Some c -> c <> "" ->
  detail_fetched E t w (VDict d) w' ->
  d !! "categoria" = Some (VStr s) -> blank s = true ->
  tr.category (fst (snd (tr.fetch E (t, w)))) = Some c.
Proof.
  intros Hc Hne _ _ _. apply fetch_category; assumption.
Qed.

End MergeFacts.

Lemma length_pos_nonempty (s : string) :
  (0 <? Z.of_nat (String.length s)) = negb (String.eqb s "").
Proof. destruct s; reflexivity. Qed.

Section MergeRules.

Context {W : Type} (E : Env W).

(** On a record carrying every field, with the destination lookup either
    answered or refused by [BadRequestException] and the time converted,
    the merge ends normally in the train the merge rules describe. *)
Lemma merge_details_merged (t : tr.Train) (w w' : W) (d : gmap string value)
    (p : Details) (r : result st.Station) (time : option datetime) :
  carries d p ->
  by_code E (idDestinazione p) w = (r, w') ->
  settles r ->
  api._to_datetime E (oraUltimoRilevamento p) = Ok time ->
  tr.merge_details E (VDict d) (t, w)
  = (Ok tt, (merged t (resolved r) p time, w')).
Proof.
  intros (Hid & Hcat & Hnp & Hpv & Hrit & Hpl & Hora) Hby Hr Htime.
  py_unfold.
  rewrite (getitem_Some _ _ _ Hid), Hby,
    (getitem_Some _ _ _ Hcat), (getitem_Some _ _ _ Hnp),
    (getitem_Some _ _ _ Hpv), (getitem_Some _ _ _ Hpl),
    (getitem_Some _ _ _ Hora), Htime.
  unfold str_upper, merged. rewrite length_pos_nonempty, <- upper_strip.
  rewrite (getitem_Some _ _ _ Hrit).
  destruct r as [station|e]; simpl in Hr; [|rewrite Hr];
    train_simpl; simpl resolved;
    destruct (negb (String.eqb (upper (strip (categoria p))) "")); simpl;
    destruct (negb (tr.truthy_str (tr.category t))); simpl;
    destruct (negb (truthy (nonPartito p))); simpl;
    destruct (ne_str (stazioneUltimoRilevamento p) "--"); reflexivity.
Qed.


(** C6. After a [fetch] on a complete record, [departed] is the negation
    of the record's [nonPartito], and [delay] is exactly the record's
    [ritardo] when [departed] is true and unset when it is false, whatever
    [ritardo] holds. *)
Theorem fetch_delay (t : tr.Train) (w w1 w2 : W) (d : gmap string value)
    (p : Details) (r : result st.Station) (time : option datetime) :
  detail_fetched E t w (VDict d) w1 ->
  carries d p ->
  by_code E (idDestinazione p) w1 = (r, w2) ->
  settles r ->
  api._to_datetime E (oraUltimoRilevamento p) = Ok time ->
  exists (t' : tr.Train) (departed : bool),
    tr.fetch E (t, w) = (Ok tt, (t', w2)) /\
    departed = negb (truthy (nonPartito p)) /\
    tr.departed t' = Some departed /\
    tr.delay t' = if departed then ritardo p else VNone.
Proof.
  intros Hfetched Hcarries Hby Hr Htime.
  exists (merged t (resolved r) p time), (negb (truthy (nonPartito p))).
  rewrite (fetch_of_detail E _ _ _ _ Hfetched).
  rewrite (merge_details_merged t w1 w2 d p r time Hcarries Hby Hr Htime).
  repeat split.
Qed.

End MergeRules.

(** In the scripted world a 200 answer whose body is free of the marker
    and known to the decoder is a fetched detail. *)
Lemma demo_detail_fetched (t : tr.Train) (body : string) (v : value)
    (w : demo.World) :
  contains "Error" body = false ->
  demo.loads body = Some v ->
  detail_fetched demo.env t ((200, body) :: w) v w.
Proof.
  intros Herr Hloads.
  exists 1699916400000, ((200, body) :: w),
    {| url := api.request_url demo.env "andamentoTreno"
                [VStr (st.code (tr.origin t)); tr.number t;
                 VInt 1699916400000];
       status_code := 200; text := body |}.
  repeat split; try reflexivity.
  - apply contains_false. exact Herr.
  - exact Hloads.
Qed.

Lemma demo_carries_waiting : carries demo.data_waiting demo.details_waiting.
Proof. repeat split; vm_compute; reflexivity. Qed.

Lemma fetch_keeps_category_witness :
  tr.category demo.listed = Some "REG" /\
  "REG" <> "" /\
  detail_fetched demo.env demo.listed [(200, demo.body_waiting)]
    (VDict demo.data_waiting) [] /\
  demo.data_waiting !! "categoria" = Some (VStr " ") /\
  blank " " = true /\
  tr.category
    (fst (snd (tr.fetch demo.env (demo.listed, [(200, demo.body_waiting)]))))
  = Some "REG".
Proof.
  assert (Hf : detail_fetched demo.env demo.listed
                 [(200, demo.body_waiting)] (VDict demo.data_waiting) [])
    by (apply demo_detail_fetched; vm_compute; reflexivity).
  assert (Hk : demo.data_waiting !! "categoria" = Some (VStr " "))
    by (vm_compute; reflexivity).
  assert (Hne : "REG" <> "") by discriminate.
  refine (conj eq_refl (conj Hne (conj Hf (conj Hk (conj eq_refl _))))).
  exact (fetch_keeps_category demo.env demo.listed
           [(200, demo.body_waiting)] [] demo.data_waiting " " "REG"
           eq_refl Hne Hf Hk eq_refl).
Defined.


Lemma fetch_delay_witness :
  detail_fetched demo.env demo.listed [(200, demo.body_waiting)]
    (VDict demo.data_waiting) [] /\
  carries demo.data_waiting demo.details_waiting /\
  settles (Raise (BadRequestException "cercaStazione" 200 "")) /\
  api._to_datetime demo.env VNone = Ok None /\
  exists (t' : tr.Train) (departed : bool),
    tr.fetch demo.env (demo.listed, [(200, demo.body_waiting)])
    = (Ok tt, (t', [])) /\
    departed = negb (truthy (VBool true)) /\
    tr.departed t' = Some departed /\
    tr.delay t' = if departed then VInt 7 else VNone.
Proof.
  assert (Hf : detail_fetched demo.env demo.listed
                 [(200, demo.body_waiting)] (VDict demo.data_waiting) [])
    by (apply demo_detail_fetched; vm_compute; reflexivity).
  refine (conj Hf (conj demo_carries_waiting (conj eq_refl (conj eq_refl _)))).
  exact (fetch_delay demo.env demo.listed
           [(200, demo.body_waiting)] [] [] demo.data_waiting
           demo.details_waiting
           (Raise (BadRequestException "cercaStazione" 200 ""))
           None Hf demo_carries_waiting eq_refl eq_refl eq_refl).
Defined.

(** ** Records with missing keys *)


Section Partial.

Context {W : Type} (E : Env W).

(** The destination block, when the lookup is answered or refused. *)
Lemma resolve_destination_run (t : tr.Train) (w w' : W)
    (d : gmap string value) (c : value) (r : result st.Station) :
  d !! "idDestinazione" = Some c ->
  by_code E c w = (r, w') ->
  settles r ->
  tr.resolve_destination E (VDict d) (t, w)
  = (Ok tt,
     (match resolved r with
      | Some s => tr.set_destination (Some s) t
      | None => t
      end, w')).
Proof.
  intros Hid Hby Hr. py_unfold. rewrite (getitem_Some _ _ _ Hid), Hby.
  destruct r as [s|e]; simpl in *; [|rewrite Hr]; reflexivity.
Qed.



End Partial.



(** ** The phantom flag under [fetch] *)

Section Flag.

Context {W : Type} (E : Env W).






End Flag.



(** ** Construction from a listing record *)

Section Listed.

Context {W : Type} (E : Env W).


End Listed.


(** * Further properties of the code *)

(** ** What [fetch] keeps *)

Section FetchKeeps.

Context {W : Type} (E : Env W).

Lemma merge_details_identity (train_data : value) (t : tr.Train) (w : W) :
  tr.number (fst (snd (tr.merge_details E train_data (t, w)))) = tr.number t /\
  tr.origin (fst (snd (tr.merge_details E train_data (t, w)))) = tr.origin t.
Proof. py_unfold. repeat py_case; split; reflexivity. Qed.

Lemma fetch_identity (t : tr.Train) (w : W) :
  tr.number (fst (snd (tr.fetch E (t, w)))) = tr.number t /\
  tr.origin (fst (snd (tr.fetch E (t, w)))) = tr.origin t.
Proof.
  rewrite fetch_unfold.
  destruct (today_midnight_ms E w) as [ms w1].
  destruct (api._raw_request _ _ _ _) as [[raw|e] w2]; [|split; reflexivity].
  destruct (json_loads E raw); [|split; reflexivity].
  apply merge_details_identity.
Qed.

(** X1. However many times [fetch] is called and whatever the outcomes
    (normal return or any exception), the train keeps its number and its
    origin. *)
Theorem fetched_keeps_identity (t t' : tr.Train) :
  fetched E t t' ->
  tr.number t' = tr.number t /\ tr.origin t' = tr.origin t.
Proof.
  induction 1 as [t | t t' t'' w w' r _ [IHn IHo] Hf].
  - split; reflexivity.
  - destruct (fetch_identity t' w) as [Hn Ho].
    rewrite Hf in Hn, Ho. simpl in Hn, Ho.
    split; congruence.
Qed.

(** X2. No number of [fetch] calls, whatever their outcomes, changes the
    phantom flag: [fetch] neither raises nor clears it. *)
Theorem fetched_keeps_flag (t t' : tr.Train) :
  fetched E t t' -> tr._phantom t' = tr._phantom t.
Proof.
  induction 1 as [t | t t' t'' w w' r _ IH Hf].
  - reflexivity.
  - rewrite <- IH, <- (fetch_phantom E t' w), Hf. reflexivity.
Qed.

(** X3. A non-empty category survives any number of [fetch] calls,
    whatever the records and whatever the outcomes. *)
Theorem fetched_keeps_category (t t' : tr.Train) (c : string) :
  fetched E t t' ->
  tr.category t = Some c -> c <> "" ->
  tr.category t' = Some c.
Proof.
  induction 1 as [t | t t' t'' w w' r _ IH Hf]; intros Hc Hne.
  - exact Hc.
  - pose proof (fetch_category E t' w c (IH Hc Hne) Hne) as H.
    rewrite Hf in H. exact H.
Qed.

(** What holds of the train when the merge ends normally. *)
Lemma merge_details_returns (train_data : value) (t t' : tr.Train)
    (w w' : W) :
  tr.merge_details E train_data (t, w) = (Ok tt, (t', w')) ->
  (exists b c : bool,
     tr.departed t' = Some b /\ tr.cancelled t' = Some c /\
     if b then True else tr.delay t' = VNone) /\
  tr.last_detection_place t' <> VStr "--".
Proof.
  py_unfold. repeat py_case; intros H; inversion H; subst; train_simpl.
  all: split;
    [ eexists _, _; split; [reflexivity | split; [reflexivity|]];
      match goal with
      | Hb : negb (truthy _) = _ |- _ => rewrite Hb; reflexivity || exact I
      end
    | intros Hx;
      first [ discriminate Hx
            | match goal with
              | Hs : ne_str _ "--" = true |- _ =>
                  rewrite Hx in Hs; discriminate Hs
              end ] ].
Qed.

(** X4. Whenever [fetch] returns normally, on any record, [departed] and
    [cancelled] hold booleans and [delay] is unset unless the train has
    departed. *)
Theorem fetch_returns_delay (t t' : tr.Train) (w w' : W) :
  tr.fetch E (t, w) = (Ok tt, (t', w')) ->
  exists b c : bool,
    tr.departed t' = Some b /\ tr.cancelled t' = Some c /\
    if b then True else tr.delay t' = VNone.
Proof.
  rewrite fetch_unfold.
  destruct (today_midnight_ms E w) as [ms w1].
  destruct (api._raw_request _ _ _ _) as [[raw|e] w2]; [|discriminate].
  destruct (json_loads E raw); [|discriminate].
  intros H. exact (proj1 (merge_details_returns _ _ _ _ _ H)).
Qed.

(** X5. Whenever [fetch] returns normally, the place of last detection is
    never the sentinel ["--"]: it has been replaced by [None]. *)
Theorem fetch_returns_no_sentinel (t t' : tr.Train) (w w' : W) :
  tr.fetch E (t, w) = (Ok tt, (t', w')) ->
  tr.last_detection_place t' <> VStr "--".
Proof.
  rewrite fetch_unfold.
  destruct (today_midnight_ms E w) as [ms w1].
  destruct (api._raw_request _ _ _ _) as [[raw|e] w2]; [|discriminate].
  destruct (json_loads E raw); [|discriminate].
  intros H. exact (proj2 (merge_details_returns _ _ _ _ _ H)).
Qed.

End FetchKeeps.

Lemma demo_fetched_running : fetched demo.env demo.bare demo.running.
Proof.
  apply (fetched_more demo.env demo.bare demo.bare demo.running
           [(200, demo.body_running)] [] (Ok tt)).
  - apply fetched_none.
  - vm_compute. reflexivity.
Qed.

Lemma demo_fetched_waiting : fetched demo.env demo.listed board.waiting.
Proof.
  apply (fetched_more demo.env demo.listed demo.listed board.waiting
           [(200, demo.body_waiting)] [] (Ok tt)).
  - apply fetched_none.
  - vm_compute. reflexivity.
Qed.

Lemma fetched_keeps_identity_witness :
  fetched demo.env demo.bare demo.running /\
  tr.number demo.running = tr.number demo.bare /\
  tr.origin demo.running = tr.origin demo.bare.
Proof.
  exact (conj demo_fetched_running
           (fetched_keeps_identity demo.env demo.bare demo.running
              demo_fetched_running)).
Defined.

Lemma fetched_keeps_flag_witness :
  fetched demo.env demo.listed board.waiting /\
  tr._phantom board.waiting = tr._phantom demo.listed.
Proof.
  exact (conj demo_fetched_waiting
           (fetched_keeps_flag demo.env demo.listed board.waiting
              demo_fetched_waiting)).
Defined.

Lemma fetched_keeps_category_witness :
  fetched demo.env demo.listed board.waiting /\
  tr.category demo.listed = Some "REG" /\
  "REG" <> "" /\
  tr.category board.waiting = Some "REG".
Proof.
  assert (Hne : "REG" <> "") by discriminate.
  refine (conj demo_fetched_waiting (conj eq_refl (conj Hne _))).
  exact (fetched_keeps_category demo.env demo.listed board.waiting "REG"
           demo_fetched_waiting eq_refl Hne).
Defined.

Lemma demo_fetch_waiting :
  tr.fetch demo.env (demo.listed, [(200, demo.body_waiting)])
  = (Ok tt, (board.waiting, [])).
Proof. vm_compute. reflexivity. Qed.

Lemma fetch_returns_delay_witness :
  tr.fetch demo.env (demo.listed, [(200, demo.body_waiting)])
  = (Ok tt, (board.waiting, [])) /\
  exists b c : bool,
    tr.departed board.waiting = Some b /\
    tr.cancelled board.waiting = Some c /\
    if b then True else tr.delay board.waiting = VNone.
Proof.
  exact (conj demo_fetch_waiting
           (fetch_returns_delay demo.env demo.listed board.waiting
              [(200, demo.body_waiting)] [] demo_fetch_waiting)).
Defined.

Lemma fetch_returns_no_sentinel_witness :
  tr.fetch demo.env (demo.listed, [(200, demo.body_waiting)])
  = (Ok tt, (board.waiting, [])) /\
  tr.last_detection_place board.waiting <> VStr "--".
Proof.
  exact (conj demo_fetch_waiting
           (fetch_returns_no_sentinel demo.env demo.listed board.waiting
              [(200, demo.body_waiting)] [] demo_fetch_waiting)).
Defined.

(** ** How [fetch] fails *)

Section FetchErrors.

Context {W : Type} (E : Env W).


(** X7. An exception raised by the HTTP session itself (connection
    failure, retries exhausted) leaves [fetch] unchanged - it is not
    wrapped in [BadRequestException] - and the train is as before. *)
Theorem fetch_transport_error (t : tr.Train) (w w1 w2 : W) (ms : Z)
    (e : exn) :
  today_midnight_ms E w = (ms, w1) ->
  session_get E
    (api.request_url E "andamentoTreno"
       [VStr (st.code (tr.origin t)); tr.number t; VInt ms]) w1
  = (Raise e, w2) ->
  tr.fetch E (t, w) = (Raise e, (t, w2)).
Proof.
  intros Hms Hget.
  apply (fetch_request_failed E t w w1 w2 ms _ Hms).
  apply raw_request_transport. exact Hget.
Qed.

(** X8. When the answer has status 200 and no marker but its body is not
    JSON, [fetch] raises [JSONDecodeError] and the train is as before. *)
Theorem fetch_undecodable (t : tr.Train) (w w1 w2 : W) (ms : Z)
    (response : Response) :
  today_midnight_ms E w = (ms, w1) ->
  session_get E
    (api.request_url E "andamentoTreno"
       [VStr (st.code (tr.origin t)); tr.number t; VInt ms]) w1
  = (Ok response, w2) ->
  status_code response = 200 ->
  ~ substring "Error" (text response) ->
  json_loads E (text response) = None ->
  tr.fetch E (t, w) = (Raise JSONDecodeError, (t, w2)).
Proof.
  intros Hms Hget H200 Herr Hjson.
  apply (fetch_decode_failed E t w w1 w2 ms (text response) Hms);
    [|exact Hjson].
  rewrite (raw_request_run E _ _ _ _ _ Hget).
  apply contains_false in Herr. rewrite Herr.
  apply Z.eqb_eq in H200. rewrite H200. reflexivity.
Qed.

(** X9. When the body decodes to something that is not an object (an
    array, a string, a number, null), [fetch] raises [TypeError] and the
    train is as before. *)
Theorem fetch_not_an_object (t : tr.Train) (w w' : W) (train_data : value) :
  detail_fetched E t w train_data w' ->
  is_object train_data = false ->
  tr.fetch E (t, w) = (Raise TypeError, (t, w')).
Proof.
  intros Hf Hobj. rewrite (fetch_of_detail E _ _ _ _ Hf).
  destruct train_data; try discriminate Hobj; reflexivity.
Qed.

(** X10. When the decoded object has no [idDestinazione], [fetch] raises
    [KeyError] for that key - the handler around the destination passes
    over [BadRequestException] only - and the train is as before. *)
Theorem fetch_no_destination_key (t : tr.Train) (w w' : W)
    (d : gmap string value) :
  detail_fetched E t w (VDict d) w' ->
  d !! "idDestinazione" = None ->
  tr.fetch E (t, w) = (Raise (KeyError "idDestinazione"), (t, w')).
Proof.
  intros Hf Hid. rewrite (fetch_of_detail E _ _ _ _ Hf).
  py_unfold. rewrite (getitem_None _ _ Hid). reflexivity.
Qed.

(** X11. When the destination lookup raises anything other than
    [BadRequestException], [fetch] raises that exception and the train is
    as before. *)
Theorem fetch_lookup_error (t : tr.Train) (w w1 w2 : W)
    (d : gmap string value) (c : value) (e : exn) :
  detail_fetched E t w (VDict d) w1 ->
  d !! "idDestinazione" = Some c ->
  by_code E c w1 = (Raise e, w2) ->
  is_BadRequestException e = false ->
  tr.fetch E (t, w) = (Raise e, (t, w2)).
Proof.
  intros Hf Hid Hby He. rewrite (fetch_of_detail E _ _ _ _ Hf).
  py_unfold. rewrite (getitem_Some _ _ _ Hid), Hby, He. reflexivity.
Qed.

(** X12. When [categoria] is present but not a string, [fetch] raises
    [AttributeError]; by then the destination has been assigned if the
    lookup was answered, and nothing else has changed. *)
Theorem fetch_category_not_str (t : tr.Train) (w w1 w2 : W)
    (d : gmap string value) (c v : value) (r : result st.Station) :
  detail_fetched E t w (VDict d) w1 ->
  d !! "idDestinazione" = Some c ->
  by_code E c w1 = (r, w2) ->
  settles r ->
  d !! "categoria" = Some v ->
  is_str v = false ->
  tr.fetch E (t, w)
  = (Raise AttributeError,
     (match resolved r with
      | Some s => tr.set_destination (Some s) t
      | None => t
      end, w2)).
Proof.
  intros Hf Hid Hby Hr Hc Hv. rewrite (fetch_of_detail E _ _ _ _ Hf).
  unfold tr.merge_details, bind.
  rewrite (resolve_destination_run E t w1 w2 d c r Hid Hby Hr).
  py_unfold. rewrite (getitem_Some _ _ _ Hc).
  destruct v; try discriminate Hv; reflexivity.
Qed.

(** Merging the same record twice is merging it once. *)
Lemma merged_idempotent (t : tr.Train) (o : option st.Station) (p : Details)
    (time : option datetime) :
  merged (merged t o p time) o p time = merged t o p time.
Proof.
  unfold merged. train_simpl.
  destruct o; destruct (String.eqb (upper (strip (categoria p))) "") eqn:Hc;
    simpl; try reflexivity.
  all: destruct (tr.truthy_str (tr.category t)) eqn:Ht; simpl;
    rewrite ?Ht, ?Hc; simpl; rewrite ?Hc; reflexivity.
Qed.

(** The detail request depends on the train's number and origin only. *)
Lemma detail_fetched_same (t t' : tr.Train) (w w' : W) (v : value) :
  tr.number t' = tr.number t -> tr.origin t' = tr.origin t ->
  detail_fetched E t w v w' -> detail_fetched E t' w v w'.
Proof.
  intros Hn Ho (ms & w1 & response & H). exists ms, w1, response.
  rewrite Hn, Ho. exact H.
Qed.

(** X13. [fetch] is idempotent on a repeated answer: when two successive
    calls receive the same complete record and the same outcome of the
    destination lookup, the second call returns normally and leaves the
    train exactly as the first one left it. *)
Theorem fetch_twice (t : tr.Train) (w w1 w2 w3 w4 : W)
    (d : gmap string value) (p : Details) (r r' : result st.Station)
    (time : option datetime) :
  carries d p ->
  api._to_datetime E (oraUltimoRilevamento p) = Ok time ->
  detail_fetched E t w (VDict d) w1 ->
  by_code E (idDestinazione p) w1 = (r, w2) ->
  settles r ->
  detail_fetched E t w2 (VDict d) w3 ->
  by_code E (idDestinazione p) w3 = (r', w4) ->
  settles r' ->
  resolved r' = resolved r ->
  exists t' : tr.Train,
    tr.fetch E (t, w) = (Ok tt, (t', w2)) /\
    tr.fetch E (t', w2) = (Ok tt, (t', w4)).
Proof.
  intros Hc Htime Hf1 Hby1 Hr1 Hf2 Hby2 Hr2 Hsame.
  exists (merged t (resolved r) p time). split.
  - rewrite (fetch_of_detail E _ _ _ _ Hf1).
    apply merge_details_merged; assumption.
  - assert (Hf2' : detail_fetched E (merged t (resolved r) p time) w2
                     (VDict d) w3)
      by (apply (detail_fetched_same t);
          [reflexivity | reflexivity | exact Hf2]).
    rewrite (fetch_of_detail E _ _ _ _ Hf2').
    rewrite (merge_details_merged E _ w3 w4 d p r' time Hc Hby2 Hr2 Htime).
    rewrite Hsame, merged_idempotent. reflexivity.
Qed.

End FetchErrors.

Lemma board_detail_fetched (t : tr.Train) (body : string) (v : value)
    (w : demo.World) :
  contains "Error" body = false ->
  board.loads body = Some v ->
  detail_fetched board.env t ((200, body) :: w) v w.
Proof.
  intros Herr Hloads.
  exists 1699916400000, ((200, body) :: w),
    {| url := api.request_url board.env "andamentoTreno"
                [VStr (st.code (tr.origin t)); tr.number t;
                 VInt 1699916400000];
       status_code := 200; text := body |}.
  repeat split; try reflexivity.
  - apply contains_false. exact Herr.
  - exact Hloads.
Qed.

Lemma demo_carries_running : carries demo.data_running demo.details_running.
Proof. repeat split; vm_compute; reflexivity. Qed.


Lemma fetch_transport_error_witness :
  today_midnight_ms demo.env [] = (1699916400000, []) /\
  session_get demo.env demo.detail_url [] = (Raise RequestException, []) /\
  tr.fetch demo.env (demo.listed, [])
  = (Raise RequestException, (demo.listed, [])).
Proof.
  refine (conj eq_refl (conj eq_refl _)).
  exact (fetch_transport_error demo.env demo.listed [] [] []
           1699916400000 RequestException eq_refl eq_refl).
Defined.

Lemma fetch_undecodable_witness :
  today_midnight_ms demo.env [(200, "<html>")]
  = (1699916400000, [(200, "<html>")]) /\
  session_get demo.env demo.detail_url [(200, "<html>")]
  = (Ok {| url := demo.detail_url; status_code := 200; text := "<html>" |},
     []) /\
  200 = 200 /\
  ~ substring "Error" "<html>" /\
  json_loads demo.env "<html>" = None /\
  tr.fetch demo.env (demo.listed, [(200, "<html>")])
  = (Raise JSONDecodeError, (demo.listed, [])).
Proof.
  assert (Herr : ~ substring "Error" "<html>")
    by (apply contains_false; reflexivity).
  refine (conj eq_refl (conj eq_refl (conj eq_refl (conj Herr
            (conj eq_refl _))))).
  exact (fetch_undecodable demo.env demo.listed
           [(200, "<html>")] [(200, "<html>")] [] 1699916400000
           {| url := demo.detail_url; status_code := 200; text := "<html>" |}
           eq_refl eq_refl eq_refl Herr eq_refl).
Defined.

Lemma fetch_not_an_object_witness :
  detail_fetched demo.env demo.listed [(200, "[]")] (VList []) [] /\
  is_object (VList []) = false /\
  tr.fetch demo.env (demo.listed, [(200, "[]")])
  = (Raise TypeError, (demo.listed, [])).
Proof.
  assert (Hf : detail_fetched demo.env demo.listed [(200, "[]")]
                 (VList []) [])
    by (apply demo_detail_fetched; reflexivity).
  refine (conj Hf (conj eq_refl _)).
  exact (fetch_not_an_object demo.env demo.listed [(200, "[]")] []
           (VList []) Hf eq_refl).
Defined.

Lemma fetch_no_destination_key_witness :
  detail_fetched board.env demo.listed [(200, board.body_empty)]
    (VDict ∅) [] /\
  (∅ : gmap string value) !! "idDestinazione" = None /\
  tr.fetch board.env (demo.listed, [(200, board.body_empty)])
  = (Raise (KeyError "idDestinazione"), (demo.listed, [])).
Proof.
  assert (Hf : detail_fetched board.env demo.listed
                 [(200, board.body_empty)] (VDict ∅) [])
    by (apply board_detail_fetched; vm_compute; reflexivity).
  refine (conj Hf (conj eq_refl _)).
  exact (fetch_no_destination_key board.env demo.listed
           [(200, board.body_empty)] [] ∅ Hf eq_refl).
Defined.

Lemma fetch_lookup_error_witness :
  detail_fetched board.env demo.listed [(200, board.body_null_destination)]
    (VDict board.data_null_destination) [] /\
  board.data_null_destination !! "idDestinazione" = Some VNone /\
  by_code board.env VNone [] = (Raise TypeError, []) /\
  is_BadRequestException TypeError = false /\
  tr.fetch board.env (demo.listed, [(200, board.body_null_destination)])
  = (Raise TypeError, (demo.listed, [])).
Proof.
  assert (Hf : detail_fetched board.env demo.listed
                 [(200, board.body_null_destination)]
                 (VDict board.data_null_destination) [])
    by (apply board_detail_fetched; vm_compute; reflexivity).
  assert (Hid : board.data_null_destination !! "idDestinazione"
                = Some VNone) by (vm_compute; reflexivity).
  refine (conj Hf (conj Hid (conj eq_refl (conj eq_refl _)))).
  exact (fetch_lookup_error board.env demo.listed
           [(200, board.body_null_destination)] [] []
           board.data_null_destination VNone TypeError
           Hf Hid eq_refl eq_refl).
Defined.

Lemma fetch_category_not_str_witness :
  detail_fetched board.env demo.listed [(200, board.body_null_category)]
    (VDict board.data_null_category) [] /\
  board.data_null_category !! "idDestinazione" = Some (VStr "S2") /\
  by_code board.env (VStr "S2") [] = (Ok demo.S2, []) /\
  settles (Ok demo.S2) /\
  board.data_null_category !! "categoria" = Some VNone /\
  is_str VNone = false /\
  tr.fetch board.env (demo.listed, [(200, board.body_null_category)])
  = (Raise AttributeError,
     (tr.set_destination (Some demo.S2) demo.listed, [])).
Proof.
  assert (Hf : detail_fetched board.env demo.listed
                 [(200, board.body_null_category)]
                 (VDict board.data_null_category) [])
    by (apply board_detail_fetched; vm_compute; reflexivity).
  assert (Hid : board.data_null_category !! "idDestinazione"
                = Some (VStr "S2")) by (vm_compute; reflexivity).
  assert (Hc : board.data_null_category !! "categoria" = Some VNone)
    by (vm_compute; reflexivity).
  refine (conj Hf (conj Hid (conj eq_refl (conj I (conj Hc
            (conj eq_refl _)))))).
  exact (fetch_category_not_str board.env demo.listed
           [(200, board.body_null_category)] [] []
           board.data_null_category (VStr "S2") VNone (Ok demo.S2)
           Hf Hid eq_refl I Hc eq_refl).
Defined.

Lemma fetch_twice_witness :
  carries demo.data_running demo.details_running /\
  api._to_datetime demo.env (VInt 1700000000000)
  = Ok (Some {| timestamp_us := 1700000000000000;
                tzinfo := "Europe/Rome" |}) /\
  detail_fetched demo.env demo.bare
    [(200, demo.body_running); (200, demo.body_running)]
    (VDict demo.data_running) [(200, demo.body_running)] /\
  by_code demo.env (VStr "S2") [(200, demo.body_running)]
  = (Ok demo.S2, [(200, demo.body_running)]) /\
  settles (Ok demo.S2) /\
  detail_fetched demo.env demo.bare [(200, demo.body_running)]
    (VDict demo.data_running) [] /\
  by_code demo.env (VStr "S2") [] = (Ok demo.S2, []) /\
  resolved (Ok demo.S2) = resolved (Ok demo.S2) /\
  exists t' : tr.Train,
    tr.fetch demo.env
      (demo.bare, [(200, demo.body_running); (200, demo.body_running)])
    = (Ok tt, (t', [(200, demo.body_running)])) /\
    tr.fetch demo.env (t', [(200, demo.body_running)]) = (Ok tt, (t', [])).
Proof.
  assert (Hf1 : detail_fetched demo.env demo.bare
                  [(200, demo.body_running); (200, demo.body_running)]
                  (VDict demo.data_running) [(200, demo.body_running)])
    by (apply demo_detail_fetched; vm_compute; reflexivity).
  assert (Hf2 : detail_fetched demo.env demo.bare
                  [(200, demo.body_running)] (VDict demo.data_running) [])
    by (apply demo_detail_fetched; vm_compute; reflexivity).
  refine (conj demo_carries_running (conj eq_refl (conj Hf1 (conj eq_refl
            (conj I (conj Hf2 (conj eq_refl (conj eq_refl _)))))))).
  exact (fetch_twice demo.env demo.bare
           [(200, demo.body_running); (200, demo.body_running)]
           [(200, demo.body_running)] [(200, demo.body_running)] [] []
           demo.data_running demo.details_running (Ok demo.S2) (Ok demo.S2)
           (Some {| timestamp_us := 1700000000000000;
                    tzinfo := "Europe/Rome" |})
           demo_carries_running eq_refl Hf1 eq_refl I Hf2 eq_refl I eq_refl).
Defined.

(** ** Normal forms of strings *)








Lemma append_assoc (a b c : string) : (a ++ b) ++ c = a ++ (b ++ c).
Proof.
  induction a as [|x a IH].
  - reflexivity.
  - rewrite !append_cons, IH. reflexivity.
Qed.

Lemma join_snoc (sep : string) (l : list string) (x : string) :
  l <> [] -> join sep (l ++ [x]) = join sep l ++ sep ++ x.
Proof.
  induction l as [|a [|b l] IH]; intros Hne.
  - contradiction.
  - reflexivity.
  - change (join sep ((a :: b :: l) ++ [x]))
      with (a ++ sep ++ join sep ((b :: l) ++ [x])).
    rewrite IH by discriminate.
    change (join sep (a :: b :: l)) with (a ++ sep ++ join sep (b :: l)).
    rewrite !append_assoc. reflexivity.
Qed.

(** ** Construction, presentation and the request URL *)

Section Construction.

Context {W : Type} (E : Env W).

(** A constructed train carries no detail. *)
Lemma from_listing_listed (train_data : value) (w w' : W) (t : tr.Train) :
  tr._from_station_departures_arrivals E train_data w = (Ok t, w') ->
  is_listed t.
Proof.
  py_unfold. repeat py_case; intros H; inversion H; subst.
  repeat split.
Qed.


(** X15. A failed lookup of the origin is fatal for construction: the
    exception of the directory, [BadRequestException] included, is raised
    to the caller and no train is built. *)
Theorem from_listing_origin_unknown (d : gmap string value) (n c : value)
    (w w' : W) (e : exn) :
  d !! "numeroTreno" = Some n ->
  d !! "codOrigine" = Some c ->
  by_code E c w = (Raise e, w') ->
  tr._from_station_departures_arrivals E (VDict d) w = (Raise e, w').
Proof.
  intros Hn Hc Hby. py_unfold.
  rewrite (getitem_Some _ _ _ Hn), (getitem_Some _ _ _ Hc), Hby. reflexivity.
Qed.

(** X16. The request URL lists the parameters in the order given, each
    after a slash: adding a parameter at the end appends ["/"] and its
    text to the URL. *)
Theorem request_url_snoc (method : string) (parameters : list value)
    (p : value) :
  parameters <> [] ->
  api.request_url E method (parameters ++ [p])
  = api.request_url E method parameters ++ "/" ++ api.str E p.
Proof.
  intros Hne. unfold api.request_url.
  rewrite map_app. simpl map.
  rewrite join_snoc.
  - rewrite !append_assoc. reflexivity.
  - destruct parameters; [contradiction | discriminate].
Qed.

(** X17. The textual summary tells a phantom train from any other: the
    [repr] of a train with the flag raised differs from the [repr] of a
    train with the flag down, whatever their fields. *)
Theorem repr_tells_phantom (station_str : st.Station -> string)
    (t1 t2 : tr.Train) :
  tr._phantom t1 = true -> tr._phantom t2 = false ->
  tr.__repr__ E station_str t1 <> tr.__repr__ E station_str t2.
Proof.
  intros H1 H2 Heq. unfold tr.__repr__ in Heq. rewrite H1, H2 in Heq.
  apply (f_equal (String.get 7)) in Heq.
  destruct (tr.truthy_bool (tr.departed t2)); cbv in Heq; discriminate Heq.
Qed.

End Construction.


Lemma from_listing_origin_unknown_witness :
  board.data_unknown_origin !! "numeroTreno" = Some (VInt 7) /\
  board.data_unknown_origin !! "codOrigine" = Some (VStr "S9") /\
  by_code demo.env (VStr "S9") []
  = (Raise (BadRequestException "cercaStazione" 200 ""), []) /\
  tr._from_station_departures_arrivals demo.env
    (VDict board.data_unknown_origin) []
  = (Raise (BadRequestException "cercaStazione" 200 ""), []).
Proof.
  assert (Hn : board.data_unknown_origin !! "numeroTreno" = Some (VInt 7))
    by (vm_compute; reflexivity).
  assert (Hc : board.data_unknown_origin !! "codOrigine"
               = Some (VStr "S9")) by (vm_compute; reflexivity).
  refine (conj Hn (conj Hc (conj eq_refl _))).
  exact (from_listing_origin_unknown demo.env board.data_unknown_origin
           (VInt 7) (VStr "S9") [] []
           (BadRequestException "cercaStazione" 200 "") Hn Hc eq_refl).
Defined.

Lemma request_url_snoc_witness :
  [VStr "S1"; VInt 100] <> [] /\
  api.request_url demo.env "andamentoTreno"
    ([VStr "S1"; VInt 100] ++ [VInt 1699916400000])
  = api.request_url demo.env "andamentoTreno" [VStr "S1"; VInt 100]
    ++ "/" ++ api.str demo.env (VInt 1699916400000).
Proof.
  assert (Hne : [VStr "S1"; VInt 100] <> []) by discriminate.
  exact (conj Hne (request_url_snoc demo.env "andamentoTreno"
                     [VStr "S1"; VInt 100] (VInt 1699916400000) Hne)).
Defined.

Lemma repr_tells_phantom_witness :
  tr._phantom demo.ghost = true /\
  tr._phantom demo.listed = false /\
  tr.__repr__ demo.env board.station_str demo.ghost
  <> tr.__repr__ demo.env board.station_str demo.listed.
Proof.
  refine (conj eq_refl (conj eq_refl _)).
  exact (repr_tells_phantom demo.env board.station_str demo.ghost
           demo.listed eq_refl eq_refl).
Defined.

Example demo_repr :
  tr.__repr__ demo.env board.station_str demo.running
  = "Treno [D] REG 100 : MILANO [S1] -> PIACENZA [S2]" /\
  tr.__repr__ demo.env board.station_str demo.ghost
  = "Treno [?] REG 100 : MILANO [S1] -> ?".
Proof. split; vm_compute; reflexivity. Qed.

(** ** The station board *)

Section Board.

Context {W : Type} (E : Env W) (now : W -> string * W).

Lemma map_m_Forall {A B : Type} (f : A -> M W B) (P : B -> Prop) :
  (forall x w y w', f x w = (Ok y, w') -> P y) ->
  forall items w ys w',
    api_trains.map_m f items w = (Ok ys, w') -> Forall P ys.
Proof.
  intros Hf. induction items as [|x items IH]; intros w ys w' H.
  - inversion H. constructor.
  - simpl in H. unfold bind in H.
    destruct (f x w) as [[y|e] w1] eqn:Hx; [|discriminate].
    destruct (api_trains.map_m f items w1) as [[ys'|e] w2] eqn:Hrest;
      [|discriminate].
    inversion H; subst. constructor.
    + exact (Hf _ _ _ _ Hx).
    + exact (IH _ _ _ Hrest).
Qed.

Lemma map_m_length {A B : Type} (f : A -> M W B) :
  forall items w ys w',
    api_trains.map_m f items w = (Ok ys, w') ->
    List.length ys = List.length items.
Proof.
  induction items as [|x items IH]; intros w ys w' H.
  - inversion H. reflexivity.
  - simpl in H. unfold bind in H.
    destruct (f x w) as [[y|e] w1] eqn:Hx; [|discriminate].
    destruct (api_trains.map_m f items w1) as [[ys'|e] w2] eqn:Hrest;
      [|discriminate].
    inversion H; subst. simpl. f_equal. exact (IH _ _ _ Hrest).
Qed.

Lemma map_m_stops {A B : Type} (f : A -> M W B) (before after : list A)
    (bad : A) (w w1 w2 : W) (ys : list B) (e : exn) :
  api_trains.map_m f before w = (Ok ys, w1) ->
  f bad w1 = (Raise e, w2) ->
  api_trains.map_m f (before ++ bad :: after) w = (Raise e, w2).
Proof.
  revert w ys. induction before as [|x before IH]; intros w ys Hb Hbad.
  - inversion Hb; subst. simpl. unfold bind. rewrite Hbad. reflexivity.
  - simpl in Hb. unfold bind in Hb.
    destruct (f x w) as [[y|e'] w'] eqn:Hx; [|discriminate].
    destruct (api_trains.map_m f before w') as [[ys'|e'] w''] eqn:Hrest;
      [|discriminate].
    inversion Hb; subst.
    change (api_trains.map_m f ((x :: before) ++ bad :: after) w)
      with (bind (f x)
              (fun y => bind (api_trains.map_m f (before ++ bad :: after))
                          (fun ys => ret (y :: ys))) w).
    unfold bind at 1. rewrite Hx. unfold bind.
    rewrite (IH _ _ Hrest Hbad). reflexivity.
Qed.

(** The listing request answered and decoded. *)
Lemma board_run (kind station_code : string) (w w1 w2 : W) (s : string)
    (response : Response) (trains : value) :
  String.eqb kind "partenze" || String.eqb kind "arrivi" = true ->
  now w = (s, w1) ->
  session_get E (api.request_url E kind [VStr station_code; VStr s]) w1
  = (Ok response, w2) ->
  status_code response = 200 ->
  ~ substring "Error" (text response) ->
  json_loads E (text response) = Some trains ->
  api_trains._station_departures_or_arrivals E now kind station_code w
  = Some (match api_trains.iterate trains with
          | Ok items =>
              api_trains.map_m (tr._from_station_departures_arrivals E)
                items w2
          | Raise e => (Raise e, w2)
          end).
Proof.
  intros Hk Hnow Hget H200 Herr Hjson.
  unfold api_trains._station_departures_or_arrivals. rewrite Hk.
  unfold bind at 1. rewrite Hnow.
  unfold bind at 1. rewrite (raw_request_run E _ _ _ _ _ Hget).
  apply contains_false in Herr. rewrite Herr.
  apply Z.eqb_eq in H200. rewrite H200. simpl.
  unfold bind at 1, lift, api._decode_json. rewrite Hjson.
  unfold bind at 1. destruct (api_trains.iterate trains); reflexivity.
Qed.

(** X18. Every train the listing request returns is a listed train: no
    destination, no delay, no last detection, the phantom flag down. *)
Theorem board_trains_listed (kind station_code : string) (w w' : W)
    (trains : list tr.Train) :
  api_trains._station_departures_or_arrivals E now kind station_code w
  = Some (Ok trains, w') ->
  Forall is_listed trains.
Proof.
  unfold api_trains._station_departures_or_arrivals.
  destruct (String.eqb kind "partenze" || String.eqb kind "arrivi");
    [|discriminate].
  unfold bind, lift. destruct (now w) as [s w1].
  destruct (api._raw_request _ _ _ _) as [[raw|e] w2]; [|discriminate].
  destruct (api._decode_json E raw) as [v|e]; [|discriminate].
  destruct (api_trains.iterate v) as [items|e]; [|discriminate].
  intros H. injection H as H.
  apply (map_m_Forall (tr._from_station_departures_arrivals E) is_listed
           (fun x w0 y w0' => from_listing_listed E x w0 w0' y)
           items w2 trains w').
  exact H.
Qed.

(** X19. When the listing request is answered with a JSON array and the
    call returns, it returns exactly one train per record of the array. *)
Theorem board_one_train_per_record (kind station_code : string)
    (w w1 w2 w' : W) (s : string) (response : Response)
    (records : list value) (trains : list tr.Train) :
  String.eqb kind "partenze" || String.eqb kind "arrivi" = true ->
  now w = (s, w1) ->
  session_get E (api.request_url E kind [VStr station_code; VStr s]) w1
  = (Ok response, w2) ->
  status_code response = 200 ->
  ~ substring "Error" (text response) ->
  json_loads E (text response) = Some (VList records) ->
  api_trains._station_departures_or_arrivals E now kind station_code w
  = Some (Ok trains, w') ->
  List.length trains = List.length records.
Proof.
  intros Hk Hnow Hget H200 Herr Hjson.
  rewrite (board_run kind station_code w w1 w2 s response _
             Hk Hnow Hget H200 Herr Hjson).
  simpl. intros H. injection H as H.
  exact (map_m_length _ _ _ _ _ H).
Qed.

(** X20. One record that cannot be constructed loses the whole board:
    when the records before it are constructed and construction of it
    raises an exception, the listing request raises that exception and
    returns none of the trains already built. *)
Theorem board_all_or_nothing (kind station_code : string)
    (w w1 w2 w3 w4 : W) (s : string) (response : Response)
    (before after : list value) (bad : value) (built : list tr.Train)
    (e : exn) :
  String.eqb kind "partenze" || String.eqb kind "arrivi" = true ->
  now w = (s, w1) ->
  session_get E (api.request_url E kind [VStr station_code; VStr s]) w1
  = (Ok response, w2) ->
  status_code response = 200 ->
  ~ substring "Error" (text response) ->
  json_loads E (text response) = Some (VList (before ++ bad :: after)) ->
  api_trains.map_m (tr._from_station_departures_arrivals E) before w2
  = (Ok built, w3) ->
  tr._from_station_departures_arrivals E bad w3 = (Raise e, w4) ->
  api_trains._station_departures_or_arrivals E now kind station_code w
  = Some (Raise e, w4).
Proof.
  intros Hk Hnow Hget H200 Herr Hjson Hbefore Hbad.
  rewrite (board_run kind station_code w w1 w2 s response _
             Hk Hnow Hget H200 Herr Hjson).
  simpl. f_equal.
  exact (map_m_stops _ before after bad w2 w3 w4 built e Hbefore Hbad).
Qed.

(** X21. A body that decodes to an object instead of an array is taken
    for a board: the empty object gives the empty list of trains without
    any error, any other object raises [TypeError], its keys being
    strings and not records. *)
Theorem board_of_object (kind station_code : string) (w w1 w2 : W)
    (s : string) (response : Response) (d : gmap string value) :
  String.eqb kind "partenze" || String.eqb kind "arrivi" = true ->
  now w = (s, w1) ->
  session_get E (api.request_url E kind [VStr station_code; VStr s]) w1
  = (Ok response, w2) ->
  status_code response = 200 ->
  ~ substring "Error" (text response) ->
  json_loads E (text response) = Some (VDict d) ->
  api_trains._station_departures_or_arrivals E now kind station_code w
  = Some (if Nat.eqb (size d) 0 then Ok [] else Raise TypeError, w2).
Proof.
  intros Hk Hnow Hget H200 Herr Hjson.
  rewrite (board_run kind station_code w w1 w2 s response _
             Hk Hnow Hget H200 Herr Hjson).
  simpl. rewrite <- (length_map_to_list d).
  destruct (map_to_list d) as [|[k v] l]; reflexivity.
Qed.


End Board.

Lemma board_departures_one :
  api_trains._station_departures_or_arrivals board.env board.now
    "partenze" "S1" [(200, board.body_one)]
  = Some (Ok [demo.listed], []).
Proof. vm_compute. reflexivity. Qed.

Lemma board_no_marker (body : string) :
  contains "Error" body = false -> ~ substring "Error" body.
Proof. apply contains_false. Qed.

Lemma board_trains_listed_witness :
  api_trains._station_departures_or_arrivals board.env board.now
    "partenze" "S1" [(200, board.body_one)]
  = Some (Ok [demo.listed], []) /\
  Forall is_listed [demo.listed].
Proof.
  exact (conj board_departures_one
           (board_trains_listed board.env board.now "partenze" "S1"
              [(200, board.body_one)] [] [demo.listed]
              board_departures_one)).
Defined.

Lemma board_one_train_per_record_witness :
  String.eqb "partenze" "partenze" || String.eqb "partenze" "arrivi" = true /\
  board.now [(200, board.body_one)]
  = ("Tue Nov 14 2023 23:13:20 CET+0100", [(200, board.body_one)]) /\
  status_code {| url := ""; status_code := 200; text := board.body_one |}
  = 200 /\
  ~ substring "Error" board.body_one /\
  json_loads board.env board.body_one
  = Some (VList [VDict demo.data_listing]) /\
  List.length [demo.listed] = List.length [VDict demo.data_listing].
Proof.
  assert (Herr : ~ substring "Error" board.body_one)
    by (apply board_no_marker; vm_compute; reflexivity).
  assert (Hjson : json_loads board.env board.body_one
                  = Some (VList [VDict demo.data_listing]))
    by (vm_compute; reflexivity).
  refine (conj eq_refl (conj eq_refl (conj eq_refl (conj Herr
            (conj Hjson _))))).
  exact (board_one_train_per_record board.env board.now "partenze" "S1"
           [(200, board.body_one)] [(200, board.body_one)] [] []
           "Tue Nov 14 2023 23:13:20 CET+0100"
           {| url := api.request_url board.env "partenze"
                       [VStr "S1";
                        VStr "Tue Nov 14 2023 23:13:20 CET+0100"];
              status_code := 200; text := board.body_one |}
           [VDict demo.data_listing] [demo.listed]
           eq_refl eq_refl eq_refl eq_refl Herr Hjson
           board_departures_one).
Defined.

Lemma board_all_or_nothing_witness :
  json_loads board.env board.body_broken
  = Some (VList ([VDict demo.data_listing] ++ VDict ∅ :: [])) /\
  api_trains.map_m (tr._from_station_departures_arrivals board.env)
    [VDict demo.data_listing] []
  = (Ok [demo.listed], []) /\
  tr._from_station_departures_arrivals board.env (VDict ∅) []
  = (Raise (KeyError "numeroTreno"), []) /\
  api_trains._station_departures_or_arrivals board.env board.now
    "arrivi" "S1" [(200, board.body_broken)]
  = Some (Raise (KeyError "numeroTreno"), []).
Proof.
  assert (Herr : ~ substring "Error" board.body_broken)
    by (apply board_no_marker; vm_compute; reflexivity).
  assert (Hjson : json_loads board.env board.body_broken
                  = Some (VList ([VDict demo.data_listing] ++ VDict ∅ :: [])))
    by (vm_compute; reflexivity).
  assert (Hbefore : api_trains.map_m
                      (tr._from_station_departures_arrivals board.env)
                      [VDict demo.data_listing] []
                    = (Ok [demo.listed], []))
    by (vm_compute; reflexivity).
  refine (conj Hjson (conj Hbefore (conj eq_refl _))).
  exact (board_all_or_nothing board.env board.now "arrivi" "S1"
           [(200, board.body_broken)] [(200, board.body_broken)] [] [] []
           "Tue Nov 14 2023 23:13:20 CET+0100"
           {| url := api.request_url board.env "arrivi"
                       [VStr "S1";
                        VStr "Tue Nov 14 2023 23:13:20 CET+0100"];
              status_code := 200; text := board.body_broken |}
           [VDict demo.data_listing] [] (VDict ∅) [demo.listed]
           (KeyError "numeroTreno")
           eq_refl eq_refl eq_refl eq_refl Herr Hjson Hbefore eq_refl).
Defined.

Lemma board_of_object_witness :
  ~ substring "Error" board.body_empty /\
  json_loads board.env board.body_empty = Some (VDict ∅) /\
  api_trains._station_departures_or_arrivals board.env board.now
    "partenze" "S1" [(200, board.body_empty)]
  = Some (Ok [], []).
Proof.
  assert (Herr : ~ substring "Error" board.body_empty)
    by (apply board_no_marker; vm_compute; reflexivity).
  refine (conj Herr (conj eq_refl _)).
  exact (board_of_object board.env board.now "partenze" "S1"
           [(200, board.body_empty)] [(200, board.body_empty)] []
           "Tue Nov 14 2023 23:13:20 CET+0100"
           {| url := api.request_url board.env "partenze"
                       [VStr "S1";
                        VStr "Tue Nov 14 2023 23:13:20 CET+0100"];
              status_code := 200; text := board.body_empty |}
           ∅ eq_refl eq_refl eq_refl eq_refl Herr eq_refl).
Defined.

